(* ===== verification/_CoqProject ===== *)
-Q . S2P
Prelude.v
JsValue.v
NumberToString.v
DateYear.v
NodeResolve.v
HostEnv.v
Copyright.v
SiteConfig.v
ConfigSpec.v
TypeCheck.v
JsExpr.v
Startup.v
