(* ===== verification/Prelude.v ===== *)
(** * A verification development of the Docusaurus site configuration

    The repository (ElishbaMehmood-01/Teaching-AI-Native-Book) has one
    source file, [src/website/docusaurus.config.js].  It is an ES module
    whose body is a single object literal, [config], exported as the
    module's default export (lines 160-239).  Lines 1-155 hold an older
    version of the same configuration inside a block comment: it is never
    evaluated and is not modelled.  The object is read once by the
    Docusaurus build tool; the repository itself has no other code.
    Evaluating the module is nevertheless a small program:
    - property values are evaluated left to right, and two of them call
      the host: [require.resolve('./sidebars.js')] (line 191) and
      [require.resolve('./src/css/custom.css')] (line 197), either of
      which throws when the file cannot be found;
    - the footer's copyright is a template literal (line 230) that calls
      [new Date().getFullYear()], i.e. the ECMAScript date arithmetic
      (YearFromTime of LocalTime of the current time value) followed by
      Number::toString of the year;
    - [prismThemes.github] and [prismThemes.dracula] (lines 233-234) are
      property reads on an imported module binding, which throw a
      TypeError when the binding is not an object.

    ** Files, in dependency order
    - [Prelude] (this file): the result (throw) monad of JS evaluation
      and its notation in [js_scope], [map_result], string helpers
      (prefix, suffix, prefix stripping) with their lemmas, the [jsdb] and
      [jsrw] hint databases and the development's tactics.
    - [JsValue]: JS values (undefined, null, booleans, integral Numbers and
      NaN, strings, arrays, objects as ordered property lists), the
      semantics of object literals (CreateDataProperty: a repeated key
      keeps its first position and takes the last value), property reads
      ([get_prop]: throwing on undefined/null, [length] and indexed
      characters on strings, indices on arrays) and paths.
    - [NumberToString]: Number::toString (ECMA-262 6.1.6.1.20) on integral
      Numbers and NaN, and the decimal parser that inverts it.
    - [DateYear]: ECMA-262 21.4.1 date arithmetic: Day, DayFromYear,
      TimeFromYear, the executable YearFromTime (estimate and correct)
      proved equal to its specification ("the largest year whose start is
      not after t"), LocalTime and Date.prototype.getFullYear.
    - [NodeResolve]: Node's [require.resolve] of a file specifier
      (LOAD_AS_FILE, LOAD_AS_DIRECTORY with package.json [main],
      LOAD_INDEX, after Node's documented algorithm) over a record of
      file-system queries, proved to answer the first existing file of its
      list of candidates.
    - [HostEnv]: the interface the module needs from its host, as a
      class: the current time value, the local time-zone offset,
      [require.resolve] and the imported [prismThemes], with the laws of
      ECMA-262 on time values and offsets ([HostEnvOk]); [node_host] is
      the host Node gives the module, its resolver being [node_resolve].
      A failed import of [prism-react-renderer] (line 161) is not a host
      of this class: under ES module linking the body then never runs, so
      every theorem is about a host on which the import succeeded.
    - [Copyright]: the template literal of line 230 and the line at the
      host's clock, with the parser that reads the year back.
    - [SiteConfig]: the module body of lines 160-239 as an evaluation in
      the result monad over a [HostEnv]: the object literal, its nested
      groups (i18n, presets, navbar, footer, prism), the copyright
      template and the default export.
    - [ConfigSpec]: the spec's testable properties (section 8 of the
      spec) as boolean checks, and the GitHub-pages deployment contract
      (url, baseUrl, organization and project names, repository link).
    - [TypeCheck]: the [// @ts-check] of line 160 and the
      [@type {Config}] annotation of line 163 as structural typing of the
      evaluated value ([jstype], [has_type], TypeScript's excess-property
      check included) against Docusaurus's [Config] restricted to the
      properties the file uses.
    - [JsExpr]: the object literal of lines 164-237 written again as
      expression syntax ([config_expr]) with a syntax-directed evaluator
      ([eval_expr]), and the proof that it evaluates to [SiteConfig.config]
      on every host: a check of the transcription of [SiteConfig].
    - [Startup]: the spec's account (sections 3, 7 and 8) of what the
      build tool does with the module: take the default export, validate
      it (against the [Config] type of [TypeCheck]; Docusaurus's own
      schema is not in the repository), build, and report broken links at
      the [onBrokenLinks] severity ([startup_result]).
    The host functions ([HostEnv]) are the only interface between the
    module and the outside: [SiteConfig]'s theorems hold for every
    instance, and [example_host] (Node's resolver over a checkout with
    both files, a given clock and offset) discharges their hypotheses in
    the witnesses.

    ** Theorems, by group
    - functional ([SiteConfig]): what [config] evaluates to on every host
      (keys in source order, resolved paths, copyright line, themes)
      ([config_fields]); under Node, the two resolved paths are existing
      files, each Node's first candidate ([config_paths_node]).
    - error and safety ([SiteConfig]): the module's throws and their order
      ([config_errors]); exactly when it evaluates ([config_Ok_iff]).
    - invariant ([ConfigSpec]): the evaluated configuration passes the
      spec's checks whatever the host ([config_meets_spec]).
    - clock ([Copyright], [SiteConfig]): the year is read back from the
      copyright line ([copyright_read_year]); on a host obeying ECMA-262
      it is the local year of the clock, in [-271821, 275760]
      ([copyright_now_year]); two hosts in the same local year give the
      same configuration ([config_same_local_year]), and two evaluated
      configurations are equal exactly when the local years are
      ([config_year_determined]): two loads across a new year differ,
      whereas the spec says two loads give the same object.
    - type ([TypeCheck]): the evaluated configuration has the annotated
      [Config] type ([config_well_typed]).
    - startup ([Startup]): end to end, the live module builds, aborting
      exactly when a link is broken, with the complete report
      ([startup_live]); under Node, the loading fails for [./sidebars.js]
      exactly when none of the paths Node tries for it is a file
      ([startup_node_missing_sidebars]).
    - model checks, not claims: the executable YearFromTime meets the
      standard's definition ([DateYear.year_from_time_correct]), the
      printer is inverted by the parser
      ([NumberToString.number_to_string_roundtrip]), and the syntax of
      [JsExpr] evaluates to [SiteConfig.config] ([JsExpr.eval_config_expr]).

    ** Bounds and fuel
    Numbers are modelled as [Z] together with NaN: every Number the
    module computes is an integral year or NaN, so no floating point is
    needed.  Strings are Stdlib strings whose characters stand for UTF-16
    code units; every literal of the file has code units below 256 (the
    copyright sign is U+00A9), so one [ascii] per code unit is exact.
    The decimal printer recurses on the value by well-founded recursion
    (Equations), and YearFromTime needs no loop: the estimate is proved
    to be off by at most one year.  No definition runs on fuel.

    ** Not modelled
    The commented-out configuration of lines 1-155 (dead code); the
    Docusaurus build itself (routing, markdown, bundling, the schema's
    defaults and its Joi validation; only the spec's account of the
    startup and of broken-link reports is stated, the schema being the
    [Config] type); Node's resolution of bare specifiers (the
    node_modules lookup) and of ['../'], which the module does not use; a
    failed import (see [HostEnv]); TypeScript's type inference and
    generics (only structural checking of the annotated value is
    modelled); the files [sidebars.js] and [src/css/custom.css], which
    are not in the repository; and floating-point Numbers, which the
    module never produces. *)

From stdpp Require Import base list strings.
From Stdlib Require Import ZArith Lia.

Declare Scope js_scope.
Delimit Scope js_scope with js.

(** ** The result of evaluating JS code: a value or a thrown error *)

Inductive result (E A : Type) : Type :=
| Ok (a : A)
| Throw (e : E).
Arguments Ok {E A} a.
Arguments Throw {E A} e.

Definition bind {E A B} (m : result E A) (k : A -> result E B) : result E B :=
  match m with
  | Ok a => k a
  | Throw e => Throw e
  end.

Notation "'let!' x := m 'in' k" := (bind m (fun x => k))
  (at level 10, x name, m at level 100, k at level 200) : js_scope.

Section ResultLemmas.
Context {E A B : Type}.

Lemma bind_Ok_l (a : A) (k : A -> result E B) : bind (Ok a) k = k a.
Proof. reflexivity. Qed.

Lemma bind_Throw_l (e : E) (k : A -> result E B) : bind (Throw e) k = Throw e.
Proof. reflexivity. Qed.

Lemma bind_Ok_inv (m : result E A) (k : A -> result E B) (b : B) :
  bind m k = Ok b -> exists a, m = Ok a /\ k a = Ok b.
Proof. destruct m; simpl; [eauto | discriminate]. Qed.

Lemma bind_Throw_inv (m : result E A) (k : A -> result E B) (e : E) :
  bind m k = Throw e -> m = Throw e \/ exists a, m = Ok a /\ k a = Throw e.
Proof. destruct m; simpl; [eauto | intros [= ->]; auto]. Qed.

(** Evaluating a list of computations left to right: the first throw
    stops the evaluation. *)
Fixpoint map_result (f : A -> result E B) (l : list A) : result E (list B) :=
  match l with
  | [] => Ok []
  | x :: l' => (let! y := f x in let! ys := map_result f l' in Ok (y :: ys))%js
  end.

End ResultLemmas.

(** ** Strings *)

Open Scope string_scope.

(** stdpp declares [String.append] [simpl never]; these are its two
    defining equations, used by the proofs below. *)
Lemma str_app_nil_l (b : string) : "" +:+ b = b.
Proof. reflexivity. Qed.

Lemma str_app_cons (x : Ascii.ascii) (a b : string) : String x a +:+ b = String x (a +:+ b).
Proof. reflexivity. Qed.

Lemma str_app_assoc (a b c : string) : (a +:+ b) +:+ c = a +:+ (b +:+ c).
Proof. induction a as [|x a IH]; [done | by rewrite !str_app_cons, IH]. Qed.

Lemma str_app_nil_r (a : string) : a +:+ "" = a.
Proof. induction a as [|x a IH]; [done | by rewrite str_app_cons, IH]. Qed.

Lemma str_length_app (a b : string) :
  String.length (a +:+ b) = (String.length a + String.length b)%nat.
Proof. induction a as [|x a IH]; [done | rewrite str_app_cons; simpl; by rewrite IH]. Qed.

(** [s] with the prefix [p] removed, when [p] is a prefix of [s]. *)
Fixpoint strip_prefix (p s : string) : option string :=
  match p, s with
  | EmptyString, _ => Some s
  | String c p', String d s' => if decide (c = d) then strip_prefix p' s' else None
  | String _ _, EmptyString => None
  end.

Lemma strip_prefix_app (p s : string) : strip_prefix p (p +:+ s) = Some s.
Proof. induction p; [done | rewrite str_app_cons; simpl; by rewrite decide_True]. Qed.

Lemma strip_prefix_Some (p s r : string) : strip_prefix p s = Some r -> s = p +:+ r.
Proof.
  revert s. induction p as [|c p IH]; intros [|d s] H; cbn [strip_prefix] in H;
    rewrite ?str_app_nil_l; try congruence.
  destruct (decide (c = d)) as [<-|]; [rewrite str_app_cons; f_equal; auto | discriminate].
Qed.

(** [s] with the suffix [q] removed, when [q] is a suffix of [s]. *)
Definition strip_suffix (q s : string) : option string :=
  let n := String.length s in
  let m := String.length q in
  if decide (m <= n)%nat then
    if decide (String.substring (n - m) m s = q)
    then Some (String.substring 0 (n - m) s) else None
  else None.

Lemma substring_app_l (a b : string) :
  String.substring 0 (String.length a) (a +:+ b) = a.
Proof. induction a as [|x a IH]; [by destruct b | rewrite str_app_cons; simpl; by rewrite IH]. Qed.

Lemma substring_full (b : string) : String.substring 0 (String.length b) b = b.
Proof. induction b as [|y b IH]; simpl; [done | by rewrite IH]. Qed.

Lemma substring_app_r (a b : string) :
  String.substring (String.length a) (String.length b) (a +:+ b) = b.
Proof.
  induction a as [|x a IH].
  - apply substring_full.
  - rewrite str_app_cons. exact IH.
Qed.

Lemma strip_suffix_app (s q : string) : strip_suffix q (s +:+ q) = Some s.
Proof.
  unfold strip_suffix. rewrite str_length_app.
  replace (String.length s + String.length q - String.length q)%nat
    with (String.length s) by lia.
  rewrite decide_True by lia.
  rewrite substring_app_r, decide_True by done.
  by rewrite substring_app_l.
Qed.

Definition starts_with (p s : string) : bool := bool_decide (is_Some (strip_prefix p s)).
Definition ends_with (q s : string) : bool := bool_decide (is_Some (strip_suffix q s)).

Lemma starts_with_app (p s : string) : starts_with p (p +:+ s) = true.
Proof. unfold starts_with. rewrite strip_prefix_app. by apply bool_decide_eq_true. Qed.

Lemma ends_with_app (s q : string) : ends_with q (s +:+ q) = true.
Proof. unfold ends_with. rewrite strip_suffix_app. by apply bool_decide_eq_true. Qed.

(** ** Automation shared by the components *)

Create HintDb jsdb discriminated.
Create Rewrite HintDb jsrw.
#[export] Hint Rewrite str_app_nil_l str_app_cons str_app_assoc str_app_nil_r str_length_app : jsrw.
#[export] Hint Rewrite strip_prefix_app strip_suffix_app : jsrw.
#[export] Hint Resolve starts_with_app ends_with_app : jsdb.

(** Invert an equation [bind m k = Ok b] into the two equations it hides. *)
Ltac bind_inv H :=
  let a := fresh "a" in
  let Hm := fresh "Hm" in
  let Hk := fresh "Hk" in
  apply bind_Ok_inv in H as (a & Hm & Hk).

(** Close a goal about closed string and value terms by evaluation. *)
Ltac js_compute := vm_compute; reflexivity.

(** [lia] treats [Z.div] and [Z.modulo] as atoms; this first replaces
    each [a / c] and [a mod c] by a quotient and a remainder with their
    Euclidean equations. *)
Ltac zdiv_lia := Z.to_euclidean_division_equations; lia.
