(* ===== verification/JsValue.v ===== *)
(** * JS values, object literals and property reads

    The values the configuration module builds: primitives, arrays and
    ordinary objects.  An object is the ordered list of its own data
    properties (insertion order, as [Object.keys] and JSON serialisation
    see it).  An object literal [{k1: e1, ..., kn: en}] evaluates its
    property definitions left to right with CreateDataPropertyOrThrow
    (ECMA-262 13.2.5.5): a key already present keeps its position and
    takes the new value.  Numbers are integral or NaN (the only Numbers
    the module produces). *)

From stdpp Require Import base list strings pretty sets.
From Stdlib Require Import ZArith Lia Ascii.
From S2P Require Import Prelude.

#[local] Set Warnings "-register-all".
Local Open Scope list_scope.

Inductive number : Type :=
| NaN
| Int (z : Z).

Inductive value : Type :=
| VUndefined
| VNull
| VBool (b : bool)
| VNumber (n : number)
| VString (s : string)
| VArray (xs : list value)
| VObject (props : list (string * value)).

(** The errors the module can throw. *)
Inductive js_error : Type :=
| TypeError (reading : string)
| ReferenceError (name : string)
| ModuleNotFound (specifier : string).

#[export] Instance number_eq_dec : EqDecision number.
Proof. solve_decision. Defined.

Fixpoint value_eq_dec (v w : value) {struct v} : Decision (v = w).
Proof.
  refine (match v, w with
  | VUndefined, VUndefined => left _
  | VNull, VNull => left _
  | VBool a, VBool b => cast_if (decide (a = b))
  | VNumber a, VNumber b => cast_if (decide (a = b))
  | VString a, VString b => cast_if (decide (a = b))
  | VArray xs, VArray ys => cast_if (@list_eq_dec _ value_eq_dec xs ys)
  | VObject xs, VObject ys =>
      cast_if (@list_eq_dec _ (@prod_eq_dec _ _ _ value_eq_dec) xs ys)
  | _, _ => right _
  end); congruence.
Defined.
#[export] Instance value_eq_decision : EqDecision value := value_eq_dec.

#[export] Instance js_error_eq_dec : EqDecision js_error.
Proof. solve_decision. Defined.

(** ** Ordinary objects *)

(** CreateDataPropertyOrThrow on an extensible ordinary object whose
    properties are all writable and configurable data properties. *)
Fixpoint define_prop (props : list (string * value)) (k : string) (v : value)
    : list (string * value) :=
  match props with
  | [] => [(k, v)]
  | (k', v') :: rest =>
      if decide (k = k') then (k', v) :: rest else (k', v') :: define_prop rest k v
  end.

(** The object an object literal evaluates to, once its property values
    are evaluated: the properties defined one after the other on a
    fresh object. *)
Definition obj_literal (defs : list (string * value)) : value :=
  VObject (fold_left (fun ps kv => define_prop ps kv.1 kv.2) defs []).

(** OrdinaryGetOwnProperty: the value of the own property [k]. *)
Fixpoint lookup_prop (props : list (string * value)) (k : string) : option value :=
  match props with
  | [] => None
  | (k', v) :: rest => if decide (k = k') then Some v else lookup_prop rest k
  end.

(** The canonical numeric string of an array index, for index reads. *)
Definition index_of_key (k : string) (len : nat) : option nat :=
  List.find (fun i => bool_decide (k = pretty i)) (seq 0 len).

(** A member expression [v.k]: RequireObjectCoercible throws a TypeError
    on undefined and null; an object answers with its own property;
    an array with its elements and [length]; a string with [length].
    Inherited methods (functions) are not values of the model, and read
    as undefined. *)
Definition get_prop (v : value) (k : string) : result js_error value :=
  match v with
  | VUndefined | VNull => Throw (TypeError k)
  | VObject ps => Ok (default VUndefined (lookup_prop ps k))
  | VArray xs =>
      if decide (k = "length") then Ok (VNumber (Int (Z.of_nat (length xs))))
      else match index_of_key k (length xs) with
           | Some i => Ok (default VUndefined (xs !! i))
           | None => Ok VUndefined
           end
  | VString s =>
      if decide (k = "length") then Ok (VNumber (Int (Z.of_nat (String.length s))))
      else match index_of_key k (String.length s) with
           | Some i => Ok (default VUndefined ((fun c => VString (String c EmptyString)) <$> String.get i s))
           | None => Ok VUndefined
           end
  | _ => Ok VUndefined
  end.

(** A chain of member reads that yields undefined instead of throwing
    ([v?.k1?.k2 ...]), used to state properties of nested fields. *)
Fixpoint get_path (v : value) (ks : list string) : value :=
  match ks with
  | [] => v
  | k :: ks' =>
      match get_prop v k with
      | Ok w => get_path w ks'
      | Throw _ => VUndefined
      end
  end.

Definition keys (props : list (string * value)) : list string := map fst props.

(** [Object.keys] of an ordinary object: its keys in insertion order. *)
Definition object_keys (v : value) : list string :=
  match v with
  | VObject ps => keys ps
  | _ => []
  end.

(** ** Member reads *)

(** A member read throws exactly on undefined and null. *)
Lemma get_prop_Throw (v : value) (k : string) (e : js_error) :
  get_prop v k = Throw e <-> (v = VUndefined \/ v = VNull) /\ e = TypeError k.
Proof.
  destruct v; simpl; repeat case_match; split; intuition congruence.
Qed.
