(* ===== verification/NumberToString.v ===== *)
(** * Number::toString on the Numbers the module produces

    ECMA-262 6.1.6.1.20 Number::toString(x, 10), which a template literal
    applies to a Number substitution (ToString, 7.1.17).  For NaN it is
    ["NaN"]; for a negative x it is ["-"] followed by the string of -x;
    for an integer 0 <= x < 10^21 it is the decimal digits of x.  The
    model's [Int z] stands for a Number whose value is the integer z; for
    |z| <= 2^53 (the safe integers) every integer is a double and the
    decimal digits are exactly what the algorithm prints.  The decimal
    parser [parse_number] inverts the printer. *)

From Equations Require Import Equations.
From stdpp Require Import base list strings.
From Stdlib Require Import ZArith Lia.
From Stdlib Require Import Ascii.
From S2P Require Import Prelude JsValue.

Local Open Scope Z_scope.

(** The code unit of the decimal digit [d] (0 <= d <= 9). *)
Definition digit_char (d : Z) : Ascii.ascii := Ascii.ascii_of_nat (48 + Z.to_nat d).

(** The decimal digits of a non-negative integer, most significant first. *)
Equations? digits (n : Z) : string by wf (Z.to_nat n) lt :=
  digits n with Z_lt_ge_dec n 10 => {
    | left _ => String (digit_char n) EmptyString
    | right _ => digits (n / 10) +:+ String (digit_char (n mod 10)) EmptyString }.
Proof. apply Z2Nat.inj_lt; [apply Z.div_pos | | apply Z.div_lt]; lia. Qed.

(** Number::toString(x, 10). *)
Definition number_to_string (x : number) : string :=
  match x with
  | NaN => "NaN"
  | Int z => if decide (z < 0) then "-" +:+ digits (- z) else digits z
  end.

(** A safe integer: |z| <= 2^53 - 1, where the model's printer is exact. *)
Definition safe_int (z : Z) : Prop := Z.abs z <= 2 ^ 53 - 1.

(** ** The decimal parser *)

Definition digit_value (c : Ascii.ascii) : option Z :=
  let n := Ascii.nat_of_ascii c in
  if decide (48 <= n <= 57)%nat then Some (Z.of_nat n - 48) else None.

Fixpoint parse_digits_acc (s : string) (acc : Z) : option Z :=
  match s with
  | EmptyString => Some acc
  | String c s' =>
      match digit_value c with
      | Some d => parse_digits_acc s' (10 * acc + d)
      | None => None
      end
  end.

Definition parse_digits (s : string) : option Z :=
  match s with
  | EmptyString => None
  | _ => parse_digits_acc s 0
  end.

Definition parse_number (s : string) : option number :=
  if decide (s = "NaN") then Some NaN
  else match strip_prefix "-" s with
       | Some r => z ← parse_digits r; Some (Int (- z))
       | None => Int <$> parse_digits s
       end.

(** ** Lemmas on the digits *)

Lemma digit_value_char (d : Z) : 0 <= d <= 9 -> digit_value (digit_char d) = Some d.
Proof.
  intros Hd. unfold digit_value, digit_char.
  rewrite Ascii.nat_ascii_embedding by lia.
  rewrite decide_True by lia. f_equal. lia.
Qed.

Lemma parse_digits_acc_app (s1 s2 : string) (acc : Z) :
  parse_digits_acc (s1 +:+ s2) acc =
  match parse_digits_acc s1 acc with Some a => parse_digits_acc s2 a | None => None end.
Proof.
  revert acc. induction s1 as [|c s1 IH]; intros acc; [done|].
  rewrite str_app_cons. simpl. destruct (digit_value c); [apply IH | done].
Qed.

(** The printed digits read back as the number, shifted in after [acc]. *)
Lemma parse_digits_acc_digits (n acc : Z) :
  0 <= n ->
  parse_digits_acc (digits n) acc = Some (acc * 10 ^ Z.of_nat (String.length (digits n)) + n).
Proof.
  revert acc. funelim (digits n); intros acc Hn.
  - cbn [parse_digits_acc String.length]. rewrite digit_value_char by lia. f_equal. lia.
  - rewrite parse_digits_acc_app, H by (apply Z.div_pos; lia).
    cbn [parse_digits_acc]. rewrite digit_value_char by (pose proof (Z.mod_pos_bound n 10); lia).
    rewrite str_length_app. cbn [String.length].
    rewrite Nat2Z.inj_add, Z.pow_add_r by lia. f_equal.
    pose proof (Z.div_mod n 10). nia.
Qed.

Lemma digits_head (n : Z) :
  0 <= n -> exists d s, digits n = String (digit_char d) s /\ 0 <= d <= 9.
Proof.
  funelim (digits n); intros Hn.
  - exists n, EmptyString. split; [done | lia].
  - destruct H as (d & s & Hds & Hd); [apply Z.div_pos; lia|].
    rewrite Hds, str_app_cons. eauto.
Qed.

Lemma parse_digits_digits (n : Z) : 0 <= n -> parse_digits (digits n) = Some n.
Proof.
  intros Hn. destruct (digits_head n Hn) as (d & s & Hds & _).
  unfold parse_digits. rewrite Hds, <- Hds, parse_digits_acc_digits by done.
  f_equal; lia.
Qed.

Lemma digit_char_not_sign (d : Z) : 0 <= d <= 9 -> digit_char d <> "-"%char /\ digit_char d <> "N"%char.
Proof.
  intros Hd. unfold digit_char. split; intros Heq;
    apply (f_equal Ascii.nat_of_ascii) in Heq;
    rewrite Ascii.nat_ascii_embedding in Heq by lia; revert Heq;
    match goal with |- context [Ascii.nat_of_ascii ?c] =>
      let v := eval vm_compute in (Ascii.nat_of_ascii c) in change (Ascii.nat_of_ascii c) with v end;
    lia.
Qed.

(** ** The printer and the parser *)

(** Round trip: the decimal parser reads back every Number the printer
    prints, NaN and negative values included. *)
Lemma number_to_string_roundtrip (x : number) :
  parse_number (number_to_string x) = Some x.
Proof.
  destruct x as [|z]; [reflexivity|]. unfold number_to_string, parse_number.
  destruct (decide (z < 0)) as [Hz|Hz].
  - rewrite decide_False by (rewrite str_app_cons; discriminate).
    rewrite strip_prefix_app, parse_digits_digits by lia. simpl.
    by rewrite Z.opp_involutive.
  - destruct (digits_head z) as (d & s & Hds & Hd); [lia|].
    destruct (digit_char_not_sign d Hd) as [Hm HN].
    rewrite decide_False by (rewrite Hds; congruence).
    rewrite Hds at 1. cbn [strip_prefix]. rewrite decide_False by congruence.
    by rewrite parse_digits_digits by lia.
Qed.

