(* ===== verification/DateYear.v ===== *)
(** * ECMAScript date arithmetic: the year of a time value

    [new Date().getFullYear()] on line 230 of docusaurus.config.js runs
    Date.prototype.getFullYear (ECMA-262 21.4.4.10): NaN for a NaN time
    value, otherwise YearFromTime(LocalTime(t)).  The section's
    definitions (21.4.1.3) are translated one by one: Day, DaysInYear,
    DayFromYear, TimeFromYear.  YearFromTime is specified as "the largest
    integral y such that TimeFromYear(y) <= t"; [year_from_time] computes
    it as engines do, by estimating the year from the number of days and
    correcting the estimate by one year, and [year_from_time_correct]
    proves it equal to the specification for every time value. *)

From stdpp Require Import base decidable tactics.
From Stdlib Require Import ZArith Lia.
From S2P Require Import Prelude JsValue.

Local Open Scope Z_scope.

Definition msPerDay : Z := 86400000.

(** Day(t) = floor(t / msPerDay). *)
Definition day (t : Z) : Z := t / msPerDay.

(** DaysInYear(y). *)
Definition days_in_year (y : Z) : Z :=
  if decide (y mod 4 <> 0) then 365
  else if decide (y mod 100 <> 0) then 366
  else if decide (y mod 400 <> 0) then 365
  else 366.

(** DayFromYear(y): the day number of the first day of year y. *)
Definition day_from_year (y : Z) : Z :=
  365 * (y - 1970) + (y - 1969) / 4 - (y - 1901) / 100 + (y - 1601) / 400.

(** TimeFromYear(y). *)
Definition time_from_year (y : Z) : Z := msPerDay * day_from_year y.

(** The specification of YearFromTime(t): [y] is the largest year that
    starts at or before [t]. *)
Definition is_year_from_time (t y : Z) : Prop :=
  time_from_year y <= t /\ forall y', time_from_year y' <= t -> y' <= y.

(** The estimate: 146097 days are 400 years. *)
Definition year_estimate (d : Z) : Z := 1970 + (d * 400) / 146097.

(** YearFromTime(t), by estimate and correction. *)
Definition year_from_time (t : Z) : Z :=
  let y := year_estimate (day t) in
  if decide (t < time_from_year y) then y - 1
  else if decide (time_from_year (y + 1) <= t) then y + 1
  else y.

(** LocalTime(t) = t + offset, with the host's offset at t. *)
Definition local_time (offset : Z -> Z) (t : Z) : Z := t + offset t.

(** Date.prototype.getFullYear on a Date whose time value is [tv]. *)
Definition get_full_year (offset : Z -> Z) (tv : number) : number :=
  match tv with
  | NaN => NaN
  | Int t => Int (year_from_time (local_time offset t))
  end.

(** The range of time values (21.4.1.1): 8.64e15 ms either side of the
    epoch. *)
Definition max_time : Z := 8640000000000000.
Definition time_value_ok (t : Z) : Prop := - max_time <= t <= max_time.

Lemma day_from_year_lt (y1 y2 : Z) : y1 < y2 -> day_from_year y1 < day_from_year y2.
Proof. unfold day_from_year. zdiv_lia. Qed.

Lemma time_from_year_lt (y1 y2 : Z) : y1 < y2 -> time_from_year y1 < time_from_year y2.
Proof. intros H. unfold time_from_year, msPerDay. pose proof (day_from_year_lt y1 y2 H). lia. Qed.

(** The estimate is off by at most one year: the day [d] lies between
    the start of the year before it and the end of the year after it. *)
Lemma year_estimate_bracket (d : Z) :
  day_from_year (year_estimate d - 1) <= d < day_from_year (year_estimate d + 2).
Proof. unfold day_from_year, year_estimate. zdiv_lia. Qed.

Lemma day_bounds (t : Z) : msPerDay * day t <= t < msPerDay * (day t + 1).
Proof. unfold day, msPerDay. zdiv_lia. Qed.

(** The computed year starts at or before [t], and the next one after. *)
Lemma year_from_time_between (t : Z) :
  time_from_year (year_from_time t) <= t < time_from_year (year_from_time t + 1).
Proof.
  pose proof (year_estimate_bracket (day t)) as [Hlo Hhi].
  pose proof (day_bounds t) as [Ht1 Ht2].
  assert (time_from_year (year_estimate (day t) - 1) <= t)
    by (unfold time_from_year, msPerDay in *; nia).
  assert (t < time_from_year (year_estimate (day t) + 2))
    by (unfold time_from_year, msPerDay in *; nia).
  unfold year_from_time.
  repeat case_decide; rewrite ?Z.sub_add; split; try lia.
  replace (year_estimate (day t) + 1 + 1) with (year_estimate (day t) + 2) by lia. lia.
Qed.

(** No year that starts at or before [t] is after the computed one. *)
Lemma year_from_time_max (t y' : Z) : time_from_year y' <= t -> y' <= year_from_time t.
Proof.
  intros Hy'. pose proof (year_from_time_between t) as [Hlo Hhi].
  destruct (Z.le_gt_cases y' (year_from_time t)) as [|Hgt]; [done|].
  assert (time_from_year (year_from_time t + 1) <= time_from_year y').
  { destruct (Z.eq_dec y' (year_from_time t + 1)) as [->|Hne]; [lia|].
    apply Z.lt_le_incl, time_from_year_lt. lia. }
  lia.
Qed.

(** ** YearFromTime meets its specification *)

(** Refinement: the computed year is the largest year that starts at or
    before [t], as ECMA-262 defines YearFromTime. *)
Lemma year_from_time_correct (t : Z) : is_year_from_time t (year_from_time t).
Proof. split; [apply year_from_time_between | apply year_from_time_max]. Qed.

(** The specification determines the year: whatever meets it is the
    computed year. *)
Lemma year_from_time_spec_iff (t y : Z) : is_year_from_time t y <-> y = year_from_time t.
Proof.
  split.
  - intros [Hy Hmax]. apply Z.le_antisymm; [by apply year_from_time_max|].
    apply Hmax, year_from_time_between.
  - intros ->. split; [apply year_from_time_between | apply year_from_time_max].
Qed.

Lemma year_from_time_mono (t1 t2 : Z) : t1 <= t2 -> year_from_time t1 <= year_from_time t2.
Proof.
  intros Ht. apply year_from_time_max. pose proof (year_from_time_between t1). lia.
Qed.

(** ** getFullYear *)

(** getFullYear answers with the YearFromTime of the local time. *)
Lemma get_full_year_Int (offset : Z -> Z) (t y : Z) :
  get_full_year offset (Int t) = Int y <-> is_year_from_time (local_time offset t) y.
Proof.
  rewrite year_from_time_spec_iff. simpl. split; [congruence | by intros ->].
Qed.

(** For a time value in range and a time-zone offset of less than a day,
    getFullYear is never NaN and the year lies in [-271821, 275760]. *)
Lemma get_full_year_range (offset : Z -> Z) (t : Z) :
  time_value_ok t -> Z.abs (offset t) < msPerDay ->
  exists y, get_full_year offset (Int t) = Int y /\ -271821 <= y <= 275760.
Proof.
  unfold time_value_ok, max_time, msPerDay. intros Ht Hoff.
  eexists. split; [reflexivity|]. unfold local_time.
  pose proof (year_from_time_mono (- 8640000000000000 - 86400000) (t + offset t)).
  pose proof (year_from_time_mono (t + offset t) (8640000000000000 + 86400000)).
  assert (year_from_time (- 8640000000000000 - 86400000) = -271821) by reflexivity.
  assert (year_from_time (8640000000000000 + 86400000) = 275760) by reflexivity.
  lia.
Qed.
