(* ===== verification/NodeResolve.v ===== *)
(** * Node's resolution of the file specifiers of [require.resolve]

    [require.resolve(X)] from a module in directory [Y] (Node's "All
    together" algorithm, CommonJS modules): for a specifier starting
    with ['./'] or ['/'], LOAD_AS_FILE(Y + X), then LOAD_AS_DIRECTORY(Y + X),
    else "not found".  LOAD_AS_FILE tries the path itself and the
    extensions [.js], [.json], [.node]; LOAD_AS_DIRECTORY follows the
    [main] field of the directory's [package.json] (LOAD_AS_FILE and
    LOAD_INDEX of it, then the deprecated LOAD_INDEX of the directory),
    and without one LOAD_INDEX, which tries [index.js], [index.json],
    [index.node].  The file system is a record of two queries.  Bare
    specifiers (the node_modules lookup) and ['../'] are not modelled:
    the module resolves neither, and [resolve_path] answers none for
    them.  [node_resolve_first] proves the nested algorithm is the first
    existing file of one list of candidates. *)

From stdpp Require Import base decidable tactics strings list.
From S2P Require Import Prelude.

Record file_system : Type := {
  (** is the path a file *)
  fs_is_file : string -> bool;
  (** the [main] field of [X/package.json], when that file exists and
      the field is truthy *)
  fs_package_main : string -> option string
}.

Definition or_else {A} (o1 o2 : option A) : option A :=
  match o1 with Some _ => o1 | None => o2 end.

(** [Y + X] for a relative or an absolute specifier. *)
Definition resolve_path (dir spec : string) : option string :=
  match strip_prefix "./" spec with
  | Some rel => Some (dir +:+ "/" +:+ rel)
  | None => if starts_with "/" spec then Some spec else None
  end.

Definition file_candidates (x : string) : list string :=
  [x; x +:+ ".js"; x +:+ ".json"; x +:+ ".node"].

Definition index_candidates (x : string) : list string :=
  [x +:+ "/index.js"; x +:+ "/index.json"; x +:+ "/index.node"].

Definition load_as_file (fs : file_system) (x : string) : option string :=
  List.find (fs_is_file fs) (file_candidates x).

Definition load_index (fs : file_system) (x : string) : option string :=
  List.find (fs_is_file fs) (index_candidates x).

(** [X + main], the main field taken relative to the directory. *)
Definition main_path (x m : string) : string :=
  x +:+ "/" +:+ default m (strip_prefix "./" m).

Definition load_as_directory (fs : file_system) (x : string) : option string :=
  match fs_package_main fs x with
  | Some m =>
      let mp := main_path x m in
      or_else (load_as_file fs mp) (or_else (load_index fs mp) (load_index fs x))
  | None => load_index fs x
  end.

Definition node_resolve (fs : file_system) (dir spec : string) : option string :=
  x ← resolve_path dir spec;
  or_else (load_as_file fs x) (load_as_directory fs x).

(** All the paths Node tries for [x], in its order. *)
Definition resolve_candidates (fs : file_system) (x : string) : list string :=
  file_candidates x ++
  match fs_package_main fs x with
  | Some m => file_candidates (main_path x m) ++ index_candidates (main_path x m) ++ index_candidates x
  | None => index_candidates x
  end.

Lemma find_app {A} (f : A -> bool) (l1 l2 : list A) :
  List.find f (l1 ++ l2) = or_else (List.find f l1) (List.find f l2).
Proof. induction l1 as [|x l1 IH]; simpl; [done|]. by destruct (f x). Qed.

(** The resolver answers the first candidate that is a file. *)
Lemma node_resolve_first (fs : file_system) (dir spec : string) :
  node_resolve fs dir spec = (x ← resolve_path dir spec; List.find (fs_is_file fs) (resolve_candidates fs x)).
Proof.
  unfold node_resolve, resolve_candidates, load_as_directory, load_as_file, load_index.
  destruct (resolve_path dir spec) as [x|]; [|done]. cbn [mbind option_bind].
  destruct (fs_package_main fs x); by rewrite !find_app.
Qed.

(** What it answers is a file, and no candidate before it is one. *)
Lemma node_resolve_Some (fs : file_system) (dir spec p : string) :
  node_resolve fs dir spec = Some p ->
  exists x pre post, resolve_path dir spec = Some x /\
    resolve_candidates fs x = (pre ++ p :: post)%list /\
    fs_is_file fs p = true /\ Forall (fun q => fs_is_file fs q = false) pre.
Proof.
  rewrite node_resolve_first. destruct (resolve_path dir spec) as [x|]; cbn [mbind option_bind]; [|done].
  intros Hf. exists x.
  induction (resolve_candidates fs x) as [|q l IH]; simpl in *; [done|].
  destruct (fs_is_file fs q) eqn:Hq.
  - injection Hf as <-. exists [], l. split_and!; [done | done | done | constructor].
  - destruct (IH Hf) as (pre & post & _ & -> & Hp & Hpre).
    exists (q :: pre), post. split_and!; [done | done | done | by constructor].
Qed.

Lemma find_None_iff {A} (f : A -> bool) (l : list A) :
  List.find f l = None <-> Forall (fun x => f x = false) l.
Proof.
  induction l as [|x l IH]; simpl; [split; [constructor | done]|].
  rewrite Forall_cons, <-IH. destruct (f x); naive_solver.
Qed.
