(* ===== verification/HostEnv.v ===== *)
(** * What the configuration module needs from its host

    The module body calls the host three times: it reads the clock
    ([new Date()] and the time zone of [getFullYear]), it resolves two
    files with [require.resolve], and it reads the [themes] binding it
    imports from prism-react-renderer.  [HostEnv] is this interface as a
    class; [HostEnvOk] states what ECMA-262 promises of the clock (a
    time value in range, an offset of less than a day).  The theorems of
    [SiteConfig] are proved against the interface, for every host.

    [node_host] is the host Node gives the module: [require.resolve] is
    [node_resolve] of [NodeResolve] over a file system, relative to the
    directory of the configuration file. *)

From stdpp Require Import base decidable tactics strings.
From Stdlib Require Import ZArith Lia.
From S2P Require Import Prelude JsValue DateYear NodeResolve.

Local Open Scope Z_scope.

Class HostEnv := {
  (** the time value (UTC, ms) identifying the current time *)
  host_now : Z;
  (** the local time-zone offset, in ms, at a UTC time value *)
  host_offset : Z -> Z;
  (** [require.resolve] of a specifier: the resolved file, or none *)
  host_resolve : string -> option string;
  (** the value of the imported binding [themes] *)
  host_prism_themes : value
}.

Class HostEnvOk `{HostEnv} := {
  host_now_ok : time_value_ok host_now;
  host_offset_ok : forall t, Z.abs (host_offset t) < msPerDay
}.

(** [require.resolve(spec)]: the resolved path, or a MODULE_NOT_FOUND
    error. *)
Definition require_resolve `{HostEnv} (spec : string) : result js_error string :=
  match host_resolve spec with
  | Some p => Ok p
  | None => Throw (ModuleNotFound spec)
  end.

Lemma require_resolve_Ok `{HostEnv} (spec p : string) :
  require_resolve spec = Ok p <-> host_resolve spec = Some p.
Proof. unfold require_resolve. destruct (host_resolve spec); split; congruence. Qed.

Lemma require_resolve_Throw `{HostEnv} (spec : string) (e : js_error) :
  require_resolve spec = Throw e <-> host_resolve spec = None /\ e = ModuleNotFound spec.
Proof. unfold require_resolve. destruct (host_resolve spec); split; intuition congruence. Qed.

(** ** A concrete host

    The repository checked out under [/Teaching-AI-Native-Book], with the
    two files the module resolves present in [website/], Node's resolver,
    a clock and a time zone given as parameters, and a [themes] module
    whose [github] and [dracula] themes are objects (their contents are
    not modelled). *)

Definition site_dir : string := "/Teaching-AI-Native-Book/website".

Definition site_files : list string :=
  [site_dir +:+ "/sidebars.js"; site_dir +:+ "/src/css/custom.css"].

Definition prism_themes_module : value :=
  VObject [("github", VObject [("plain", VObject [])]);
           ("dracula", VObject [("plain", VObject [])])].

(** Node running the module [dir/docusaurus.config.js] on [fs]. *)
Definition node_host (fs : file_system) (dir : string) (now : Z) (offset : Z -> Z)
    (themes : value) : HostEnv := {|
  host_now := now;
  host_offset := offset;
  host_resolve := node_resolve fs dir;
  host_prism_themes := themes
|}.

(** A checkout whose only files are [site_files], with no [package.json]. *)
Definition site_fs : file_system := {|
  fs_is_file := fun p => bool_decide (p ∈ site_files);
  fs_package_main := fun _ => None
|}.

Definition example_host (now : Z) (offset : Z -> Z) : HostEnv :=
  node_host site_fs site_dir now offset prism_themes_module.

(** The clock laws hold for an in-range clock and a constant offset of
    less than a day. *)
Lemma example_host_ok (now off : Z) :
  time_value_ok now -> Z.abs off < msPerDay -> @HostEnvOk (example_host now (fun _ => off)).
Proof. intros Hn Ho. split; [exact Hn | intros t; exact Ho]. Qed.

(** The concrete host at 2025-11-09T00:00:00Z, in Pakistan Standard Time
    (UTC+05:00). *)
Definition witness_host : HostEnv := example_host 1762646400000 (fun _ => 18000000).

Lemma witness_host_ok : @HostEnvOk witness_host.
Proof. apply example_host_ok; unfold time_value_ok, max_time, msPerDay; lia. Qed.
