(* ===== verification/Copyright.v ===== *)
(** * The footer's copyright line

    Line 230 of docusaurus.config.js:
    [copyright: `Copyright © ${new Date().getFullYear()} Elishba Mehmood. Built with Docusaurus.`]
    A template literal concatenates its string parts with ToString of
    each substitution (ECMA-262 13.15.5), here the Number returned by
    getFullYear.  [copyright_text] is that template, [copyright_now] the
    whole expression at a given clock.  The year can be read back from
    the line ([read_year]), so two lines are equal exactly when their
    years are. *)

From stdpp Require Import base decidable tactics strings.
From Stdlib Require Import ZArith Lia.
From S2P Require Import Prelude JsValue NumberToString DateYear HostEnv.

Local Open Scope Z_scope.

(** The code unit U+00A9 of the copyright sign. *)
Definition copyright_sign : string := String (Ascii.ascii_of_nat 169) EmptyString.

Definition copyright_head : string := "Copyright " +:+ copyright_sign +:+ " ".
Definition copyright_tail : string := " Elishba Mehmood. Built with Docusaurus.".

(** The template literal, given the value of its substitution. *)
Definition copyright_text (year : number) : string :=
  copyright_head +:+ number_to_string year +:+ copyright_tail.

(** [new Date().getFullYear()] in the template, at the host's clock. *)
Definition copyright_now `{HostEnv} : string :=
  copyright_text (get_full_year host_offset (Int host_now)).

(** Reading the year back from a copyright line. *)
Definition read_year (s : string) : option number :=
  r ← strip_prefix copyright_head s;
  m ← strip_suffix copyright_tail r;
  parse_number m.

(** ** The year in the line *)

(** C5: Round trip: the year is read back from the copyright line. *)
Theorem copyright_read_year (year : number) : read_year (copyright_text year) = Some year.
Proof.
  unfold read_year, copyright_text.
  rewrite strip_prefix_app. simpl.
  rewrite strip_suffix_app. simpl.
  apply number_to_string_roundtrip.
Qed.

(** Two copyright lines are equal only for equal years. *)
Lemma copyright_text_inj (y1 y2 : number) : copyright_text y1 = copyright_text y2 -> y1 = y2.
Proof.
  unfold copyright_text. intros Heq.
  apply (f_equal (fun s => m ← strip_prefix copyright_head s;
                           strip_suffix copyright_tail m)) in Heq.
  rewrite !strip_prefix_app in Heq. simpl in Heq. rewrite !strip_suffix_app in Heq.
  injection Heq as Heq. apply (f_equal parse_number) in Heq.
  rewrite !number_to_string_roundtrip in Heq. congruence.
Qed.

(** C6: On every host whose clock obeys ECMA-262, the line carries the year
    of the local time, never "NaN", and that year lies within the
    range of time values. *)
Theorem copyright_now_year `{HostEnvOk} :
  exists y, copyright_now = copyright_text (Int y) /\
            is_year_from_time (local_time host_offset host_now) y /\
            -271821 <= y <= 275760.
Proof.
  destruct (get_full_year_range host_offset host_now host_now_ok (host_offset_ok host_now))
    as (y & Hy & Hrange).
  exists y. unfold copyright_now. rewrite Hy. split; [done | split; [|done]].
  by apply get_full_year_Int.
Qed.

(** ** Witnesses *)

Lemma copyright_now_year_witness :
  exists y, @copyright_now witness_host = copyright_text (Int y) /\
            is_year_from_time (local_time (@host_offset witness_host) (@host_now witness_host)) y /\
            -271821 <= y <= 275760.
Proof. exact (@copyright_now_year witness_host witness_host_ok). Defined.

