(* ===== verification/SiteConfig.v ===== *)
(** * The configuration module, lines 160-239 of docusaurus.config.js

    The module evaluates one object literal and exports it.  Property
    values are evaluated in source order; the pure ones (string, boolean
    and nested literals) cannot throw, and the effectful ones are, in
    order: [require.resolve('./sidebars.js')] and
    [require.resolve('./src/css/custom.css')] inside [presets], then
    [new Date().getFullYear()] (which cannot throw) and the reads
    [prismThemes.github], [prismThemes.dracula] inside [themeConfig].
    Each group of the literal is one definition here, in the result monad
    of [Prelude] where it can throw, over any host of [HostEnv]. *)

From stdpp Require Import base decidable tactics strings list.
From Stdlib Require Import ZArith Lia.
From S2P Require Import Prelude JsValue NumberToString DateYear NodeResolve HostEnv Copyright.

Local Open Scope js_scope.

Section ConfigModule.
Context `{HostEnv}.

(** [i18n: { defaultLocale: 'en', locales: ['en'] }] *)
Definition i18n : value :=
  obj_literal [("defaultLocale", VString "en"); ("locales", VArray [VString "en"])].

(** [presets: [['classic', { docs, blog, theme }]]] *)
Definition presets : result js_error value :=
  let! sidebar := require_resolve "./sidebars.js" in
  let! css := require_resolve "./src/css/custom.css" in
  Ok (VArray [VArray [VString "classic";
    obj_literal [
      ("docs", obj_literal [("sidebarPath", VString sidebar)]);
      ("blog", obj_literal [("showReadingTime", VBool true)]);
      ("theme", obj_literal [("customCss", VString css)])]]]).

(** [themeConfig.navbar] *)
Definition navbar : value :=
  obj_literal [
    ("title", VString "Teaching AI-Native Book");
    ("logo", obj_literal [("alt", VString "AI-Native Logo"); ("src", VString "img/logo.svg")]);
    ("items", VArray [
      obj_literal [("type", VString "docSidebar"); ("sidebarId", VString "tutorialSidebar");
                   ("position", VString "left"); ("label", VString "Book")];
      obj_literal [("href", VString "https://github.com/ElishbaMehmood-01/Teaching-AI-Native-Book");
                   ("label", VString "GitHub"); ("position", VString "right")]])].

(** [themeConfig.footer], with the copyright template at the host's clock. *)
Definition footer : value :=
  obj_literal [("style", VString "dark"); ("copyright", VString copyright_now)].

(** [themeConfig.prism]: two reads of the imported [themes] binding. *)
Definition prism : result js_error value :=
  let! github := get_prop host_prism_themes "github" in
  let! dracula := get_prop host_prism_themes "dracula" in
  Ok (obj_literal [("theme", github); ("darkTheme", dracula)]).

(** [themeConfig] *)
Definition theme_config : result js_error value :=
  let! p := prism in
  Ok (obj_literal [
    ("image", VString "img/docusaurus-social-card.jpg");
    ("colorMode", obj_literal [("respectPrefersColorScheme", VBool true)]);
    ("navbar", navbar);
    ("footer", footer);
    ("prism", p)]).

(** [const config = { ... }] *)
Definition config : result js_error value :=
  let! ps := presets in
  let! tc := theme_config in
  Ok (obj_literal [
    ("title", VString "Teaching AI-Native Book");
    ("tagline", VString "An AI-native, spec-driven book on modern software development");
    ("favicon", VString "img/favicon.ico");
    ("future", obj_literal [("v4", VBool true)]);
    ("url", VString "https://elishbamehmood-01.github.io");
    ("baseUrl", VString "/Teaching-AI-Native-Book/");
    ("organizationName", VString "ElishbaMehmood-01");
    ("projectName", VString "Teaching-AI-Native-Book");
    ("onBrokenLinks", VString "throw");
    ("i18n", i18n);
    ("presets", ps);
    ("themeConfig", tc)]).

(** [export default config]: the module namespace's [default]. *)
Definition module_namespace : result js_error value :=
  let! c := config in
  Ok (obj_literal [("default", c)]).
End ConfigModule.

(** ** Evaluating the module *)

(** Invert [config = Ok c] in [Hc]: both files resolve, the theme reads
    succeed, and [c] is the object literal of the module. *)
Ltac config_Ok_inv Hc :=
  unfold config, presets, theme_config in Hc;
  destruct (require_resolve "./sidebars.js"), (require_resolve "./src/css/custom.css"), prism;
  simpl in Hc; try discriminate; injection Hc as <-.

Section Evaluation.
Context `{HostEnv}.

Definition sidebars_spec : string := "./sidebars.js".
Definition custom_css_spec : string := "./src/css/custom.css".

Lemma prism_Ok_iff :
  (exists v, prism = Ok v) <-> host_prism_themes <> VUndefined /\ host_prism_themes <> VNull.
Proof.
  unfold prism. destruct (get_prop host_prism_themes "github") as [g|e] eqn:Eg; simpl.
  - destruct (get_prop host_prism_themes "dracula") as [d|e] eqn:Ed; simpl.
    + split; [intros _ | eauto].
      split; intros Hv; rewrite Hv in Eg; discriminate.
    + apply get_prop_Throw in Ed as [[Hv | Hv] _]; rewrite Hv in Eg; discriminate.
  - apply get_prop_Throw in Eg as [Hv _]. split; [intros [? [=]] | intuition].
Qed.

(** C4: The configuration evaluates without throwing exactly when both
    files resolve and the imported [themes] is neither undefined nor
    null. *)
Theorem config_Ok_iff :
  (exists c, config = Ok c) <->
  is_Some (host_resolve sidebars_spec) /\ is_Some (host_resolve custom_css_spec) /\
  host_prism_themes <> VUndefined /\ host_prism_themes <> VNull.
Proof.
  rewrite <- prism_Ok_iff.
  unfold config, presets, theme_config, require_resolve, sidebars_spec, custom_css_spec.
  destruct (host_resolve "./sidebars.js"), (host_resolve "./src/css/custom.css"),
    prism; simpl; naive_solver.
Qed.

(** C2: The errors, in the order the literal evaluates: a missing
    sidebars file first, then a missing stylesheet, then the read of
    [github] on an undefined or null [themes]. *)
Theorem config_errors :
  (host_resolve sidebars_spec = None ->
     config = Throw (ModuleNotFound sidebars_spec)) /\
  (is_Some (host_resolve sidebars_spec) -> host_resolve custom_css_spec = None ->
     config = Throw (ModuleNotFound custom_css_spec)) /\
  (is_Some (host_resolve sidebars_spec) -> is_Some (host_resolve custom_css_spec) ->
     host_prism_themes = VUndefined \/ host_prism_themes = VNull ->
     config = Throw (TypeError "github")).
Proof.
  unfold config, presets, theme_config, prism, require_resolve, sidebars_spec, custom_css_spec.
  split_and!; intros H1; [by rewrite H1|..].
  - destruct H1 as [p1 ->]. intros ->. done.
  - destruct H1 as [p1 ->]. intros [p2 ->] [-> | ->]; done.
Qed.

Definition config_keys : list string :=
  ["title"; "tagline"; "favicon"; "future"; "url"; "baseUrl"; "organizationName";
   "projectName"; "onBrokenLinks"; "i18n"; "presets"; "themeConfig"].

(** C1: What the evaluated configuration holds: its twelve top-level keys in
    source order, the resolved sidebars and stylesheet paths, the
    copyright line at the host's clock, and the two themes read from
    the imported module. *)
Theorem config_fields (p1 p2 : string) (ps : list (string * value)) :
  host_resolve sidebars_spec = Some p1 -> host_resolve custom_css_spec = Some p2 ->
  host_prism_themes = VObject ps ->
  exists c, config = Ok c /\
    object_keys c = config_keys /\
    get_path c ["presets"; "0"; "1"; "docs"; "sidebarPath"] = VString p1 /\
    get_path c ["presets"; "0"; "1"; "theme"; "customCss"] = VString p2 /\
    get_path c ["themeConfig"; "footer"; "copyright"] = VString copyright_now /\
    get_path c ["themeConfig"; "prism"; "theme"] = default VUndefined (lookup_prop ps "github") /\
    get_path c ["themeConfig"; "prism"; "darkTheme"] = default VUndefined (lookup_prop ps "dracula").
Proof.
  unfold config, presets, theme_config, prism, footer, require_resolve, sidebars_spec, custom_css_spec.
  intros -> -> ->. eexists. split; [reflexivity|].
  cbn. split_and!; reflexivity.
Qed.

(** The two paths of a configuration that evaluates are what
    [require.resolve] answered. *)
Lemma config_Ok_resolved (c : value) :
  config = Ok c ->
  exists p1 p2, require_resolve "./sidebars.js" = Ok p1 /\
    require_resolve "./src/css/custom.css" = Ok p2 /\
    get_path c ["presets"; "0"; "1"; "docs"; "sidebarPath"] = VString p1 /\
    get_path c ["presets"; "0"; "1"; "theme"; "customCss"] = VString p2.
Proof.
  unfold config, presets, theme_config.
  destruct (require_resolve "./sidebars.js") as [p1|] eqn:E1,
    (require_resolve "./src/css/custom.css") as [p2|] eqn:E2, prism; simpl; try discriminate.
  intros [= <-]. exists p1, p2. split_and!; [done | done | reflexivity | reflexivity].
Qed.
(** Of the configuration's throws, MODULE_NOT_FOUND for [./sidebars.js]
    is the one of a sidebars file that does not resolve. *)
Lemma config_Throw_sidebars (e : js_error) :
  config = Throw e -> (e = ModuleNotFound "./sidebars.js" <-> host_resolve "./sidebars.js" = None).
Proof.
  unfold config, presets, theme_config, prism, require_resolve.
  destruct (host_resolve "./sidebars.js"), (host_resolve "./src/css/custom.css");
    simpl; [|intros [= <-]; split; intros Heq; inversion Heq; done..].
  destruct (get_prop host_prism_themes "github") as [|e1] eqn:E1; simpl.
  - destruct (get_prop host_prism_themes "dracula") as [|e2] eqn:E2; simpl; [done|].
    apply get_prop_Throw in E2 as [_ ->]. intros [= <-]; split; intros Heq; inversion Heq.
  - apply get_prop_Throw in E1 as [_ ->]. intros [= <-]; split; intros Heq; inversion Heq.
Qed.
(** The copyright line of a configuration that evaluates is the one of
    the host's clock. *)
Lemma config_copyright (c : value) :
  config = Ok c -> get_path c ["themeConfig"; "footer"; "copyright"] = VString copyright_now.
Proof. intros Hc. config_Ok_inv Hc. reflexivity. Qed.
End Evaluation.

(** ** Under Node *)

(** C11: Under Node, a configuration that evaluates names two existing
    files: [sidebarPath] and [customCss] are each the first file among
    the candidates Node tries for [./sidebars.js] and
    [./src/css/custom.css] in the configuration's directory. *)
Theorem config_paths_node (fs : file_system) (dir : string) (now : Z) (offset : Z -> Z)
    (themes c : value) :
  @config (node_host fs dir now offset themes) = Ok c ->
  exists p1 p2,
    get_path c ["presets"; "0"; "1"; "docs"; "sidebarPath"] = VString p1 /\
    get_path c ["presets"; "0"; "1"; "theme"; "customCss"] = VString p2 /\
    List.find (fs_is_file fs) (resolve_candidates fs (dir +:+ "/sidebars.js")) = Some p1 /\
    List.find (fs_is_file fs) (resolve_candidates fs (dir +:+ "/src/css/custom.css")) = Some p2 /\
    fs_is_file fs p1 = true /\ fs_is_file fs p2 = true.
Proof.
  intros (p1 & p2 & E1 & E2 & H1 & H2)%config_Ok_resolved.
  apply require_resolve_Ok in E1, E2. simpl in E1, E2.
  rewrite node_resolve_first in E1, E2.
  assert (resolve_path dir "./sidebars.js" = Some (dir +:+ "/sidebars.js")) as R1 by reflexivity.
  assert (resolve_path dir "./src/css/custom.css" = Some (dir +:+ "/src/css/custom.css"))
    as R2 by reflexivity.
  rewrite R1 in E1. rewrite R2 in E2. cbn [mbind option_bind] in E1, E2.
  exists p1, p2. split_and!; try done; eapply find_some; eassumption.
Qed.

(** ** The clock *)


(** C8: Two hosts that resolve the same files and import the same themes
    give the same evaluated configuration exactly when their clocks fall
    in the same local year: the configuration records the year of the
    load and nothing else of the clock, so a load in another year gives
    another configuration. *)
Theorem config_year_determined (h1 h2 : HostEnv) (c1 c2 : value) :
  @host_resolve h1 = @host_resolve h2 ->
  @host_prism_themes h1 = @host_prism_themes h2 ->
  @config h1 = Ok c1 -> @config h2 = Ok c2 ->
  c1 = c2 <->
  year_from_time (local_time (@host_offset h1) (@host_now h1)) =
  year_from_time (local_time (@host_offset h2) (@host_now h2)).
Proof.
  intros Hr Ht Hc1 Hc2. split.
  - intros <-. pose proof (@config_copyright h1 c1 Hc1) as E1.
    rewrite (@config_copyright h2 c1 Hc2) in E1. unfold copyright_now in E1.
    assert (E : copyright_text (get_full_year (@host_offset h2) (Int (@host_now h2))) =
                copyright_text (get_full_year (@host_offset h1) (Int (@host_now h1))))
      by congruence.
    apply copyright_text_inj in E. simpl in E. congruence.
  - intros Hy. revert Hc1 Hc2.
    unfold config, presets, theme_config, prism, footer, copyright_now, require_resolve, get_full_year.
    rewrite Hr, Ht, Hy. congruence.
Qed.

(** ** Witnesses *)

Lemma config_fields_witness :
  exists c, @config witness_host = Ok c /\
    object_keys c = config_keys /\
    get_path c ["presets"; "0"; "1"; "docs"; "sidebarPath"] =
      VString "/Teaching-AI-Native-Book/website/sidebars.js" /\
    get_path c ["presets"; "0"; "1"; "theme"; "customCss"] =
      VString "/Teaching-AI-Native-Book/website/src/css/custom.css" /\
    get_path c ["themeConfig"; "footer"; "copyright"] = VString (@copyright_now witness_host) /\
    get_path c ["themeConfig"; "prism"; "theme"] =
      default VUndefined (lookup_prop [("github", VObject [("plain", VObject [])]);
                                       ("dracula", VObject [("plain", VObject [])])] "github") /\
    get_path c ["themeConfig"; "prism"; "darkTheme"] =
      default VUndefined (lookup_prop [("github", VObject [("plain", VObject [])]);
                                       ("dracula", VObject [("plain", VObject [])])] "dracula").
Proof. apply (@config_fields witness_host); vm_compute; reflexivity. Defined.


Lemma config_paths_node_witness :
  let c := match @config witness_host with Ok c => c | Throw _ => VUndefined end in
  exists p1 p2,
    get_path c ["presets"; "0"; "1"; "docs"; "sidebarPath"] = VString p1 /\
    get_path c ["presets"; "0"; "1"; "theme"; "customCss"] = VString p2 /\
    List.find (fs_is_file site_fs) (resolve_candidates site_fs (site_dir +:+ "/sidebars.js")) = Some p1 /\
    List.find (fs_is_file site_fs) (resolve_candidates site_fs (site_dir +:+ "/src/css/custom.css")) = Some p2 /\
    fs_is_file site_fs p1 = true /\ fs_is_file site_fs p2 = true.
Proof.
  intros c. subst c.
  apply (config_paths_node site_fs site_dir 1762646400000%Z (fun _ => 18000000%Z) prism_themes_module).
  vm_compute. reflexivity.
Defined.

(** 2025-12-31T23:59:59.999Z read in London and in Karachi: one instant,
    two local years (2025 and 2026), two configurations. *)
Lemma config_year_determined_witness :
  exists c1 c2,
    @config (example_host 1767225599999 (fun _ => 0%Z)) = Ok c1 /\
    @config (example_host 1767225599999 (fun _ => 18000000%Z)) = Ok c2 /\ c1 <> c2.
Proof.
  set (h1 := example_host 1767225599999 (fun _ => 0%Z)).
  set (h2 := example_host 1767225599999 (fun _ => 18000000%Z)).
  exists (match @config h1 with Ok c => c | Throw _ => VUndefined end),
    (match @config h2 with Ok c => c | Throw _ => VUndefined end).
  assert (H1 : @config h1 = Ok (match @config h1 with Ok c => c | Throw _ => VUndefined end))
    by (vm_compute; reflexivity).
  assert (H2 : @config h2 = Ok (match @config h2 with Ok c => c | Throw _ => VUndefined end))
    by (vm_compute; reflexivity).
  split; [exact H1|]. split; [exact H2|]. intros E.
  apply (proj1 (config_year_determined h1 h2 _ _ eq_refl eq_refl H1 H2)) in E.
  vm_compute in E. discriminate E.
Defined.
