(* ===== verification/ConfigSpec.v ===== *)
(** * What the spec asks of the configuration

    Section 8 of the spec lists the testable properties of the
    configuration object: required fields are non-empty strings, the
    base path begins and ends with a path separator, the locale list
    contains the default locale, and the navbar and footer links are
    well-formed label/URL pairs.  Section 7 fixes one policy: a broken
    link aborts the build ([onBrokenLinks] is ['throw']).  Section 6 adds
    the deployment contract of GitHub Pages: the site is served at
    [https://<organization, lower case>.github.io] under
    [/<project name>/].  Each is a boolean check on a JS value here;
    [spec_checks] is their conjunction. *)

From stdpp Require Import base decidable tactics strings list.
From Stdlib Require Import ZArith Lia Ascii.
From S2P Require Import Prelude JsValue HostEnv Copyright SiteConfig.

(** ** Reading fields *)

Definition string_at (c : value) (path : list string) : option string :=
  match get_path c path with
  | VString s => Some s
  | _ => None
  end.

Definition has_string (c : value) (k : string) : bool := bool_decide (is_Some (string_at c [k])).

Definition nonempty_string_at (c : value) (path : list string) : bool :=
  match string_at c path with
  | Some s => bool_decide (s <> "")
  | None => false
  end.

Definition is_object (v : value) : bool := match v with VObject _ => true | _ => false end.
Definition is_array (v : value) : bool := match v with VArray _ => true | _ => false end.

(** ** The checks of the spec, section 8 *)

Definition required_strings : list string :=
  ["title"; "favicon"; "url"; "baseUrl"; "organizationName"; "projectName"; "onBrokenLinks"].

(** The required fields of section 6 are present, non-empty where they
    are strings. *)
Definition check_required (c : value) : bool :=
  forallb (fun k => nonempty_string_at c [k]) required_strings &&
  is_object (get_path c ["i18n"]) && is_array (get_path c ["presets"]) &&
  is_object (get_path c ["themeConfig"]).

(** The base path begins and ends with a path separator. *)
Definition check_base_url (c : value) : bool :=
  match string_at c ["baseUrl"] with
  | Some b => starts_with "/" b && ends_with "/" b
  | None => false
  end.

(** The locale list contains the default locale. *)
Definition check_locales (c : value) : bool :=
  match string_at c ["i18n"; "defaultLocale"], get_path c ["i18n"; "locales"] with
  | Some d, VArray ls => bool_decide (VString d ∈ ls)
  | _, _ => false
  end.

(** Section 7: broken internal links abort the build. *)
Definition check_on_broken_links (c : value) : bool :=
  bool_decide (string_at c ["onBrokenLinks"] = Some "throw").

(** A navbar item: a label, a position left or right when given, and
    either a doc-sidebar item naming its sidebar or a link with exactly
    one of [to] and [href]. *)
Definition navbar_item_ok (it : value) : bool :=
  has_string it "label" &&
  match string_at it ["position"] with
  | Some p => bool_decide (p = "left" \/ p = "right")
  | None => true
  end &&
  match string_at it ["type"] with
  | Some t => bool_decide (t = "docSidebar") && has_string it "sidebarId"
  | None => xorb (has_string it "to") (has_string it "href")
  end.

Definition check_navbar (c : value) : bool :=
  match get_path c ["themeConfig"; "navbar"; "items"] with
  | VArray its => forallb navbar_item_ok its
  | _ => false
  end.

(** A footer link: a label and exactly one of [to] and [href]. *)
Definition footer_link_ok (it : value) : bool :=
  has_string it "label" && xorb (has_string it "to") (has_string it "href").

Definition footer_column_ok (col : value) : bool :=
  has_string col "title" &&
  match get_path col ["items"] with
  | VArray its => forallb footer_link_ok its
  | _ => false
  end.

(** The footer's link columns, when there are any, are well formed. *)
Definition check_footer_links (c : value) : bool :=
  match get_path c ["themeConfig"; "footer"; "links"] with
  | VUndefined => true
  | VArray cols => forallb footer_column_ok cols
  | _ => false
  end.

(** ** The GitHub Pages contract *)

Definition ascii_to_lower (a : ascii) : ascii :=
  let n := nat_of_ascii a in
  if decide (65 <= n <= 90) then ascii_of_nat (n + 32) else a.

(** ASCII lower case (GitHub account names are ASCII). *)
Fixpoint to_lower (s : string) : string :=
  match s with
  | EmptyString => EmptyString
  | String a s' => String (ascii_to_lower a) (to_lower s')
  end.

(** The site URL is the organization's Pages host and the base path is
    the project's name between slashes. *)
Definition check_github_pages (c : value) : bool :=
  match string_at c ["url"], string_at c ["baseUrl"],
        string_at c ["organizationName"], string_at c ["projectName"] with
  | Some u, Some b, Some o, Some p =>
      bool_decide (u = "https://" +:+ to_lower o +:+ ".github.io") &&
      bool_decide (b = "/" +:+ p +:+ "/")
  | _, _, _, _ => false
  end.

(** A navbar link points at the repository [organization/project]. *)
Definition check_repo_link (c : value) : bool :=
  match string_at c ["organizationName"], string_at c ["projectName"],
        get_path c ["themeConfig"; "navbar"; "items"] with
  | Some o, Some p, VArray its =>
      existsb (fun it => bool_decide (string_at it ["href"] =
                                      Some ("https://github.com/" +:+ o +:+ "/" +:+ p))) its
  | _, _, _ => false
  end.

(** Everything the spec asks. *)
Definition spec_checks (c : value) : bool :=
  check_required c && check_base_url c && check_locales c && check_on_broken_links c &&
  check_navbar c && check_footer_links c && check_github_pages c && check_repo_link c.

(** ** The configuration meets the spec *)

(** C3: Whatever the host, the configuration the module evaluates to passes
    every check of the spec: the required fields, the base path, the
    locales, the broken-link policy, the navbar and footer links, and the
    GitHub Pages contract. *)
Theorem config_meets_spec `{HostEnv} (c : value) : config = Ok c -> spec_checks c = true.
Proof. intros Hc. config_Ok_inv Hc. cbn. reflexivity. Qed.

(** ** Witnesses *)

Lemma config_meets_spec_witness :
  spec_checks (match @config witness_host with Ok c => c | Throw _ => VUndefined end) = true.
Proof. apply (@config_meets_spec witness_host). vm_compute. reflexivity. Defined.
