(* ===== verification/TypeCheck.v ===== *)
(** * The [@type {Config}] annotation under [@ts-check]

    Line 160 turns on TypeScript's checking of the file ([// @ts-check])
    and line 163 annotates [config] with Docusaurus's [Config] type.
    The check has no run-time effect; what it promises is a property of
    the value: it has the annotated type.  [jstype] is the fragment of
    TypeScript's types the annotation needs (primitives, string literal
    types, unions, arrays, tuples, object types with required and
    optional properties, index signatures), [has_type] is structural
    typing of a JS value, with TypeScript's excess-property check for the
    fresh object literals of the file, and [config_type] is Docusaurus's
    [Config] restricted to the properties this file uses and the sibling
    option [onBrokenMarkdownLinks] ([title], [url] and [baseUrl]
    required, the others optional). *)

From stdpp Require Import base decidable tactics strings list.
From Stdlib Require Import ZArith Lia.
From S2P Require Import Prelude JsValue HostEnv SiteConfig.

#[local] Set Warnings "-register-all".

Inductive jstype : Type :=
| TAny
| TString
| TBoolean
| TNumber
| TLiteral (s : string)
| TUnion (ts : list jstype)
| TArray (t : jstype)
| TTuple (ts : list jstype)
(** an object type: each property with whether it is required *)
| TObject (fields : list (string * bool * jstype))
(** an index signature [{[key: string]: t}] *)
| TRecord (t : jstype).

Definition field_names (fs : list (string * bool * jstype)) : list string :=
  map (fun f => f.1.1) fs.

(** Structural typing.  An object must have every required property,
    every present declared property must have its type, and (excess
    property check) every property must be declared. *)
Fixpoint has_type (t : jstype) (v : value) {struct t} : bool :=
  match t, v with
  | TAny, _ => true
  | TString, VString _ => true
  | TBoolean, VBool _ => true
  | TNumber, VNumber _ => true
  | TLiteral s, VString s' => bool_decide (s = s')
  | TUnion ts, _ => existsb (fun t' => has_type t' v) ts
  | TArray t', VArray xs => forallb (has_type t') xs
  | TTuple ts, VArray xs =>
      (fix go (ts : list jstype) (xs : list value) : bool :=
         match ts, xs with
         | [], [] => true
         | t' :: ts', x :: xs' => has_type t' x && go ts' xs'
         | _, _ => false
         end) ts xs
  | TObject fs, VObject ps =>
      forallb (fun f =>
        match lookup_prop ps f.1.1 with
        | Some w => has_type f.2 w
        | None => negb f.1.2
        end) fs &&
      forallb (fun kv => bool_decide (kv.1 ∈ field_names fs)) ps
  | TRecord t', VObject ps => forallb (fun kv => has_type t' kv.2) ps
  | _, _ => false
  end.

(** [ReportingSeverity] *)
Definition reporting_severity : jstype :=
  TUnion [TLiteral "ignore"; TLiteral "log"; TLiteral "warn"; TLiteral "throw"].

(** [Partial<I18nConfig>] *)
Definition i18n_type : jstype :=
  TObject [("defaultLocale", false, TString); ("locales", false, TArray TString);
           ("path", false, TString); ("localeConfigs", false, TRecord TAny)].

(** [PresetConfig]: a preset name, or a name with its options. *)
Definition preset_config_type : jstype :=
  TUnion [TString; TTuple [TString; TAny]].

(** The [future] flags. *)
Definition future_type : jstype :=
  TObject [("v4", false, TAny); ("experimental_faster", false, TAny);
           ("experimental_storage", false, TAny); ("experimental_router", false, TAny)].

(** Docusaurus's [Config], on the properties the file uses. *)
Definition config_type : jstype :=
  TObject [
    ("title", true, TString); ("url", true, TString); ("baseUrl", true, TString);
    ("tagline", false, TString); ("favicon", false, TString); ("future", false, future_type);
    ("organizationName", false, TString); ("projectName", false, TString);
    ("onBrokenLinks", false, reporting_severity);
    ("onBrokenMarkdownLinks", false, reporting_severity);
    ("i18n", false, i18n_type); ("presets", false, TArray preset_config_type);
    ("themeConfig", false, TRecord TAny)].

(** ** The annotated configuration *)

(** C9: On every host where it evaluates, the configuration has the type its
    annotation declares: the check of [@ts-check] accepts it. *)
Theorem config_well_typed `{HostEnv} (c : value) :
  config = Ok c -> has_type config_type c = true.
Proof. intros Hc. config_Ok_inv Hc. cbn. reflexivity. Qed.

(** ** Witnesses *)

Lemma config_well_typed_witness :
  has_type config_type (match @config witness_host with Ok c => c | Throw _ => VUndefined end) = true.
Proof. apply (@config_well_typed witness_host). vm_compute. reflexivity. Defined.
