(* ===== verification/JsExpr.v ===== *)
(** * The module's expressions, as syntax, and their evaluation

    [SiteConfig] writes the value of each group of the literal by hand,
    with its effects bound in order.  This file gives the independent,
    syntax-directed account used to check that model: [expr] has one
    constructor per form of expression the file uses (string and boolean
    literals, array and object literals, an identifier of the module
    scope, a member read, [require.resolve('...')],
    [new Date().getFullYear()] and a template literal with one
    substitution), [eval_expr] is their evaluation (ECMA-262 13:
    subexpressions left to right, the first throw aborting the whole),
    and [config_expr] is the literal of lines 164-237 written as syntax.
    [eval_config_expr] says the hand-written model is what the syntax
    evaluates to, on every host. *)

From stdpp Require Import base decidable tactics strings list.
From Stdlib Require Import ZArith Lia.
From S2P Require Import Prelude JsValue NumberToString DateYear HostEnv Copyright SiteConfig.

Local Open Scope js_scope.

Inductive expr : Type :=
| EString (s : string)
| EBool (b : bool)
| EArray (es : list expr)
| EObject (props : list (string * expr))
(** a binding of the module scope *)
| EIdent (x : string)
(** [e.k] *)
| EMember (e : expr) (k : string)
(** [require.resolve('spec')] *)
| ERequireResolve (spec : string)
(** [new Date().getFullYear()] *)
| ENewDateGetFullYear
(** [`head${e}tail`] *)
| ETemplate (head : string) (e : expr) (tail : string).

(** ToString (ECMA-262 7.1.17) of the values the model has; an array
    converts by [Array.prototype.join] with [","], where undefined and
    null elements are empty, and an ordinary object by
    [Object.prototype.toString]. *)
Fixpoint to_string (v : value) : string :=
  match v with
  | VUndefined => "undefined"
  | VNull => "null"
  | VBool b => if b then "true" else "false"
  | VNumber n => number_to_string n
  | VString s => s
  | VArray xs =>
      (fix join (xs : list value) : string :=
         let elem x := match x with VUndefined | VNull => "" | _ => to_string x end in
         match xs with
         | [] => ""
         | [x] => elem x
         | x :: xs' => elem x +:+ "," +:+ join xs'
         end) xs
  | VObject _ => "[object Object]"
  end.

Section Eval.
Context `{HostEnv}.

(** The module scope: the binding imported on line 161 (line 7 in the
    commented-out version). *)
Definition module_scope (x : string) : option value :=
  if decide (x = "prismThemes") then Some host_prism_themes else None.

Fixpoint eval_expr (e : expr) : result js_error value :=
  match e with
  | EString s => Ok (VString s)
  | EBool b => Ok (VBool b)
  | EArray es => let! vs := map_result eval_expr es in Ok (VArray vs)
  | EObject ps =>
      let! kvs := map_result (fun '(k, e') => let! v := eval_expr e' in Ok (k, v)) ps in
      Ok (obj_literal kvs)
  | EIdent x => match module_scope x with Some v => Ok v | None => Throw (ReferenceError x) end
  | EMember e' k => let! v := eval_expr e' in get_prop v k
  | ERequireResolve spec => let! p := require_resolve spec in Ok (VString p)
  | ENewDateGetFullYear => Ok (VNumber (get_full_year host_offset (Int host_now)))
  | ETemplate h e' t => let! v := eval_expr e' in Ok (VString (h +:+ to_string v +:+ t))
  end.
End Eval.

(** ** The literal of the file *)

(** [const config = { ... }], lines 164-237. *)
Definition config_expr : expr :=
  EObject [
    ("title", EString "Teaching AI-Native Book");
    ("tagline", EString "An AI-native, spec-driven book on modern software development");
    ("favicon", EString "img/favicon.ico");
    ("future", EObject [("v4", EBool true)]);
    ("url", EString "https://elishbamehmood-01.github.io");
    ("baseUrl", EString "/Teaching-AI-Native-Book/");
    ("organizationName", EString "ElishbaMehmood-01");
    ("projectName", EString "Teaching-AI-Native-Book");
    ("onBrokenLinks", EString "throw");
    ("i18n", EObject [("defaultLocale", EString "en"); ("locales", EArray [EString "en"])]);
    ("presets", EArray [EArray [EString "classic"; EObject [
      ("docs", EObject [("sidebarPath", ERequireResolve "./sidebars.js")]);
      ("blog", EObject [("showReadingTime", EBool true)]);
      ("theme", EObject [("customCss", ERequireResolve "./src/css/custom.css")])]]]);
    ("themeConfig", EObject [
      ("image", EString "img/docusaurus-social-card.jpg");
      ("colorMode", EObject [("respectPrefersColorScheme", EBool true)]);
      ("navbar", EObject [
        ("title", EString "Teaching AI-Native Book");
        ("logo", EObject [("alt", EString "AI-Native Logo"); ("src", EString "img/logo.svg")]);
        ("items", EArray [
          EObject [("type", EString "docSidebar"); ("sidebarId", EString "tutorialSidebar");
                   ("position", EString "left"); ("label", EString "Book")];
          EObject [("href", EString "https://github.com/ElishbaMehmood-01/Teaching-AI-Native-Book");
                   ("label", EString "GitHub"); ("position", EString "right")]])]);
      ("footer", EObject [
        ("style", EString "dark");
        ("copyright", ETemplate copyright_head ENewDateGetFullYear copyright_tail)]);
      ("prism", EObject [
        ("theme", EMember (EIdent "prismThemes") "github");
        ("darkTheme", EMember (EIdent "prismThemes") "dracula")])])].

(** ** The hand-written model is the evaluation of the syntax *)

Section Agreement.
Context `{HostEnv}.

Lemma module_scope_prismThemes : module_scope "prismThemes" = Some host_prism_themes.
Proof. unfold module_scope. by rewrite decide_True. Qed.

(** Evaluate both sides, then case on each host call, in the order the
    literal makes them. *)
Ltac agree_tac :=
  cbn; rewrite ?module_scope_prismThemes;
  repeat match goal with
         | |- context [require_resolve ?s] => destruct (require_resolve s); cbn
         | |- context [get_prop host_prism_themes ?k] => destruct (get_prop host_prism_themes k); cbn
         end; reflexivity.

(** A check of the model, not a property of the program: the
    syntax-directed evaluation of the literal of lines 164-237 is the
    configuration [SiteConfig] writes by hand, on every host (the same
    value, and the same throw in the same order).  It confirms that the
    hand-written grouping of the effects ([presets] before [themeConfig],
    [sidebars.js] before [custom.css], [github] before [dracula]) is the
    evaluation order of the literal. *)
Lemma eval_config_expr : eval_expr config_expr = config.
Proof.
  unfold config, presets, theme_config, prism, footer, navbar, i18n, copyright_now, copyright_text.
  agree_tac.
Qed.

End Agreement.
