(* ===== verification/Startup.v ===== *)
(** * Startup of the build tool on the configuration module (spec, sections 3, 7, 8)

    The spec's account of how the external tool consumes the file: it
    imports the module once at startup and takes its default export,
    validates it against the configuration schema (a malformed object or
    a missing required field fails startup), builds the site, and reports
    the broken links the build found with the [onBrokenLinks] severity,
    where ['throw'] (also the default) aborts the build.  [startup_result]
    is the outcome of that sequence; the schema is the [Config] type of
    [TypeCheck] (Docusaurus's own Joi schema is not in the
    repository), and the broken links of the site's content, which the
    repository does not hold, are a parameter. *)

From stdpp Require Import base decidable tactics strings list.
From Stdlib Require Import ZArith Lia.
From S2P Require Import Prelude JsValue NodeResolve HostEnv SiteConfig.
From S2P Require Import ConfigSpec TypeCheck.

Local Open Scope js_scope.

(** ** Reporting broken links *)

Inductive build_outcome : Type :=
| BuildOk (messages : list string)
| BuildAborted (message : string).

Definition broken_links_message (broken : list string) : string :=
  foldr (fun l acc => "Broken link: " +:+ l +:+ "; " +:+ acc) "" broken.

(** The report of the broken links a build found, at a severity. *)
Definition report_broken_links (severity : option string) (broken : list string) : build_outcome :=
  match broken with
  | [] => BuildOk []
  | _ =>
      let msg := broken_links_message broken in
      match severity with
      | Some s =>
          if decide (s = "ignore") then BuildOk []
          else if decide (s = "log" \/ s = "warn") then BuildOk [msg]
          else BuildAborted msg
      | None => BuildAborted msg
      end
  end.

(** ** The startup *)

Inductive failure : Type :=
| LoadFailed (e : js_error)
| InvalidConfig (c : value).

Inductive outcome : Type :=
| Finished (o : build_outcome)
| Failed (f : failure).

Section Startup.
(** The namespace of the imported module, and the broken links the
    build of the content finds. *)
Variable module : result js_error value.
Variable broken : list string.

(** [(await import(configPath)).default] *)
Definition default_export : result js_error value :=
  let! ns := module in get_prop ns "default".

Definition build_result (c : value) : build_outcome :=
  report_broken_links (string_at c ["onBrokenLinks"]) broken.

(** Load, validate, build: the first failure ends the startup. *)
Definition startup_result : outcome :=
  match default_export with
  | Throw e => Failed (LoadFailed e)
  | Ok c => if has_type config_type c then Finished (build_result c) else Failed (InvalidConfig c)
  end.
End Startup.

(** ** The startup on this repository's module *)

Section OnHost.
Context `{HostEnv}.

(** The default export of the live module is the configuration. *)
Lemma default_export_namespace : default_export module_namespace = config.
Proof. unfold default_export, module_namespace. by destruct config. Qed.

(** C10: End to end: on every host where both files resolve and
    [themes] is an object, the tool starts on the live module, accepts
    its configuration and finishes the build: silently when no link is
    broken, aborted with the report of the broken links otherwise. *)
Theorem startup_live (p1 p2 : string) (ps : list (string * value)) (broken : list string) :
  host_resolve sidebars_spec = Some p1 -> host_resolve custom_css_spec = Some p2 ->
  host_prism_themes = VObject ps ->
  startup_result module_namespace broken =
    Finished (match broken with
              | [] => BuildOk []
              | _ => BuildAborted (broken_links_message broken)
              end).
Proof.
  unfold startup_result, default_export, build_result, module_namespace, config, presets,
    theme_config, prism, footer, require_resolve, sidebars_spec, custom_css_spec.
  intros -> -> ->. cbn. by destruct broken.
Qed.

End OnHost.

(** ** The startup under Node *)

(** C12: Under Node, the startup fails while loading with MODULE_NOT_FOUND
    for [./sidebars.js] exactly when none of the paths Node tries for it
    in the configuration's directory is a file, whatever else the
    checkout holds and whatever the content. *)
Theorem startup_node_missing_sidebars (fs : file_system) (dir : string) (now : Z)
    (offset : Z -> Z) (themes : value) (broken : list string) :
  startup_result (@module_namespace (node_host fs dir now offset themes)) broken =
    Failed (LoadFailed (ModuleNotFound "./sidebars.js")) <->
  Forall (fun p => fs_is_file fs p = false) (resolve_candidates fs (dir +:+ "/sidebars.js")).
Proof.
  set (h := node_host fs dir now offset themes).
  unfold startup_result. rewrite (@default_export_namespace h), <-find_None_iff.
  assert (@host_resolve h "./sidebars.js" =
          List.find (fs_is_file fs) (resolve_candidates fs (dir +:+ "/sidebars.js"))) as <-.
  { simpl. by rewrite node_resolve_first. }
  destruct (@config h) as [c|e] eqn:Hc.
  - split; [by destruct (has_type config_type c)|].
    destruct (@config_Ok_resolved h c Hc) as (p1 & p2 & E1 & _).
    apply require_resolve_Ok in E1. congruence.
  - rewrite <-(@config_Throw_sidebars h e Hc). split; [congruence | by intros ->].
Qed.

(** ** Witnesses *)

(** A checkout without [website/sidebars.js]. *)
Definition no_sidebars_fs : file_system := {|
  fs_is_file := fun p => bool_decide (p = site_dir +:+ "/src/css/custom.css");
  fs_package_main := fun _ => None
|}.

Lemma startup_live_witness :
  startup_result (@module_namespace witness_host) ["/docs/missing"] =
    Finished (BuildAborted (broken_links_message ["/docs/missing"])).
Proof. eapply (@startup_live witness_host _ _ _ ["/docs/missing"]); reflexivity. Defined.

Lemma startup_node_missing_sidebars_witness :
  startup_result (@module_namespace (node_host no_sidebars_fs site_dir 1762646400000 (fun _ => 0%Z)
                                       prism_themes_module)) [] =
    Failed (LoadFailed (ModuleNotFound "./sidebars.js")).
Proof.
  apply (proj2 (startup_node_missing_sidebars no_sidebars_fs site_dir 1762646400000 (fun _ => 0%Z)
                  prism_themes_module [])).
  vm_compute. repeat constructor.
Defined.
